(** * Machine provisioning controller (package [machineprovision])

    A shallow embedding of the reconcile handlers of the Rancher
    machine-provision controller: the job-status translator
    ([getMachineStatus], [getMachineStatusFromPod]), the teardown path
    ([namespaceIsRemoved], [OnRemove], [doRemove]), the create path ([run],
    [OnChange]), the status and condition patchers ([patchStatus],
    [setCondition]) and the file materializer ([constructFilesSecret]).

    Go maps are [gmap]s, Go's [(T, error)] results are pairs or sums, nil
    pointers are [None], a nil-pointer dereference is an explicit [Panicked]
    outcome, and the calls that leave the process (enqueue, status update,
    apply) are recorded in a trace. *)

From Stdlib Require Import ZArith String Ascii List Bool Lia.
From stdpp Require Import base option gmap strings list fin_maps pretty.

Local Open Scope string_scope.
Local Open Scope Z_scope.

(** ** Go strings *)

Definition newline : string := String "010"%char EmptyString.

(** [strings.HasSuffix]: [len(s) >= len(suffix) && s[len(s)-len(suffix):] == suffix]. *)
Definition HasSuffix (s suffix : string) : bool :=
  (String.length suffix <=? String.length s)%nat
  && String.eqb
       (substring (String.length s - String.length suffix)
                  (String.length suffix) s)
       suffix.

Definition lower_ascii (c : ascii) : ascii :=
  let n := nat_of_ascii c in
  if ((65 <=? n) && (n <=? 90))%nat then ascii_of_nat (n + 32) else c.

(** [strings.ToLower] on the ASCII letters, which is all that the comparison
    in [ToBool] can observe. *)
Fixpoint ToLower (s : string) : string :=
  match s with
  | EmptyString => EmptyString
  | String c r => String (lower_ascii c) (ToLower r)
  end.

(** ** Dynamic values ([interface{}]) and wrangler's [convert] *)

Inductive value : Type :=
| VNil
| VBool (b : bool)
| VStr (s : string)
| VInt (z : Z).

#[global] Instance value_eq_dec : EqDecision value.
Proof. solve_decision. Defined.

(** [convert.ToString]: nil is the empty string, everything else prints
    with [fmt.Sprint]. *)
Definition ToString (v : value) : string :=
  match v with
  | VNil => ""
  | VBool true => "true"
  | VBool false => "false"
  | VStr s => s
  | VInt z => pretty z
  end.

(** [convert.ToBool]: a bool is itself, anything else is true when its
    lower-cased string form is one of true, t, yes, y. *)
Definition ToBool (v : value) : bool :=
  match v with
  | VBool b => b
  | _ =>
      let str := ToLower (ToString v) in
      String.eqb str "true" || String.eqb str "t"
      || String.eqb str "yes" || String.eqb str "y"
  end.

(** Reading a key of a [map[string]interface{}]: a missing key reads nil. *)
Definition getValue (m : gmap string value) (k : string) : value :=
  default VNil (m !! k).

(** ** Errors and results *)

Inductive error : Type :=
| ErrSkip                       (* generic.ErrSkip *)
| ErrNotFound (msg : string)    (* an apierror with reason NotFound *)
| ErrOther (msg : string).      (* any other error, e.g. fmt.Errorf *)

#[global] Instance error_eq_dec : EqDecision error.
Proof. solve_decision. Defined.

Definition IsNotFound (e : option error) : bool :=
  match e with
  | Some (ErrNotFound _) => true
  | _ => false
  end.

(** [errors.Is(generic.ErrSkip, err)]: [ErrSkip] wraps nothing, so this is
    the comparison [ErrSkip == err]. *)
Definition errors_Is_ErrSkip (err : option error) : bool :=
  match err with
  | Some ErrSkip => true
  | _ => false
  end.

Definition error_Error (e : error) : string :=
  match e with
  | ErrSkip => "skip"
  | ErrNotFound msg => msg
  | ErrOther msg => msg
  end.

(** A Go call that returns [(x, nil)] or [(zero, err)]. *)
Inductive result (A : Type) : Type :=
| Ok (a : A)
| Err (e : error).
Arguments Ok {A} a.
Arguments Err {A} e.

(** A Go call that may also stop in a run-time panic. *)
Inductive outcome (A : Type) : Type :=
| Returned (a : A)
| Panicked.
Arguments Returned {A} a.
Arguments Panicked {A}.

(** ** Kubernetes objects, as far as the handlers read them *)

(** [metav1.Time] as seconds since the epoch; a nil [*Time] is [None]. *)
Abbreviation Time := Z.

Record GroupVersionKind : Type := {
  Group : string;
  Version : string;
  Kind : string
}.

#[global] Instance GroupVersionKind_eq_dec : EqDecision GroupVersionKind.
Proof. solve_decision. Defined.

(** A typed condition of a Job or of a CAPI Machine. *)
Record Condition : Type := {
  cond_Type : string;
  cond_Status : string;
  cond_Reason : string
}.

(** [condition.Cond]: the first condition whose type is the wanted one. *)
Definition findCond (name : string) (conds : list Condition) : option Condition :=
  List.find (fun c => String.eqb (cond_Type c) name) conds.

Definition Cond_getStatus (name : string) (conds : list Condition) : string :=
  match findCond name conds with
  | Some c => cond_Status c
  | None => ""
  end.

Definition Cond_IsTrue (name : string) (conds : list Condition) : bool :=
  String.eqb (Cond_getStatus name conds) "True".

Definition Cond_IsFalse (name : string) (conds : list Condition) : bool :=
  String.eqb (Cond_getStatus name conds) "False".

Definition Cond_GetReason (name : string) (conds : list Condition) : string :=
  match findCond name conds with
  | Some c => cond_Reason c
  | None => ""
  end.

(** [corev1.ContainerStateTerminated]. *)
Record ContainerStateTerminated : Type := {
  ExitCode : Z;
  Message : string
}.

(** [corev1.ContainerStatus]: [State.Terminated] is a pointer. *)
Record ContainerStatus : Type := {
  cs_Name : string;
  Terminated : option ContainerStateTerminated
}.

Inductive PodPhase : Type :=
| PodPending | PodRunning | PodSucceeded | PodFailed | PodUnknown.

Record Pod : Type := {
  pod_Name : string;
  CreationTimestamp : Time;
  Phase : PodPhase;
  ContainerStatuses : list ContainerStatus
}.

(** Modelled from the spec: the struct [rkev1.RKEMachineStatus], which is
    declared outside the sources at hand. The spec's data model gives it
    the fields jobComplete, jobName, failureReason and failureMessage;
    [patchStatus] tests for missing keys, so empty fields are omitted when
    the struct is encoded. *)
Record RKEMachineStatus : Type := {
  JobComplete : bool;
  JobName : string;
  FailureReason : string;
  FailureMessage : string
}.

#[global] Instance RKEMachineStatus_eq_dec : EqDecision RKEMachineStatus.
Proof. solve_decision. Defined.

(** The zero value [rkev1.RKEMachineStatus{}]. *)
Definition emptyStatus : RKEMachineStatus :=
  {| JobComplete := false; JobName := ""; FailureReason := ""; FailureMessage := "" |}.

(** [rkev1.RKEMachineStatus{JobComplete: true}]. *)
Definition completeStatus : RKEMachineStatus :=
  {| JobComplete := true; JobName := ""; FailureReason := ""; FailureMessage := "" |}.

(** [errors.CreateMachineError] and [errors.DeleteMachineError] of cluster-api. *)
Definition CreateMachineError : string := "CreateError".
Definition DeleteMachineError : string := "DeleteError".

Record LabelSelectorRequirement : Type := {
  req_Key : string;
  req_Operator : string;
  req_Values : list string
}.

(** [metav1.LabelSelector]. *)
Record LabelSelector : Type := {
  MatchLabels : gmap string string;
  MatchExpressions : list LabelSelectorRequirement
}.

(** [batchv1.Job]. *)
Record Job : Type := {
  job_Namespace : string;
  job_Name : string;
  job_Selector : option LabelSelector;      (* Spec.Selector *)
  job_CompletionTime : option Time;         (* Status.CompletionTime *)
  job_Conditions : list Condition           (* Status.Conditions *)
}.

Record OwnerReference : Type := {
  owner_Kind : string;
  owner_Name : string
}.

#[global] Instance OwnerReference_eq_dec : EqDecision OwnerReference.
Proof. solve_decision. Defined.

(** The CAPI Machine that owns an infrastructure machine. *)
Record Machine : Type := {
  machine_Name : string;
  InfrastructureRef : GroupVersionKind;     (* Spec.InfrastructureRef.GroupVersionKind() *)
  NodeRef : option string;                  (* Status.NodeRef, by node name *)
  machine_Conditions : list Condition       (* Status.Conditions *)
}.

Record Namespace : Type := {
  ns_Name : string;
  ns_DeletionTimestamp : option Time
}.

(** The provisioning cluster ([provisioning.cattle.io/v1]). *)
Record Cluster : Type := {
  cluster_Name : string;
  cluster_DeletionTimestamp : option Time;
  KubernetesVersion : string
}.

(** Go's zero [time.Time] (January 1 of year 1, UTC) in Unix seconds. *)
Definition zeroTime : Time := -62135596800.

(** [IsZero] on a [metav1.Time] pointer: nil, or the zero time. *)
Definition Time_IsZero (t : option Time) : bool :=
  match t with
  | None => true
  | Some z => z =? zeroTime
  end.

(** The infrastructure machine: an unstructured object, and at the same
    time its [data.Object] view ([data.Convert] hands back the object's own
    map). [obj_status] holds the scalar fields under [status],
    [obj_conditions] the slice [status.conditions], and
    [obj_annotationConditions] the conditions that wrangler's [summary]
    package decodes from the [cattle.io/status] annotation. *)
Record InfraObj : Type := {
  obj_gvk : GroupVersionKind;
  obj_namespace : string;
  obj_name : string;
  obj_labels : gmap string string;
  obj_ownerReferences : list OwnerReference;
  obj_deletionTimestamp : option Time;
  obj_annotationConditions : list (gmap string value);
  obj_spec : gmap string value;
  obj_status : gmap string value;
  obj_conditions : list (gmap string value)
}.

#[global] Instance InfraObj_eq_dec : EqDecision InfraObj.
Proof. solve_decision. Defined.

(** [d.String("status", k)] and [d.Bool("status", k)]. *)
Definition status_String (d : InfraObj) (k : string) : string :=
  ToString (getValue (obj_status d) k).

Definition status_Bool (d : InfraObj) (k : string) : bool :=
  ToBool (getValue (obj_status d) k).

Definition with_spec (d : InfraObj) (spec : gmap string value) : InfraObj :=
  {| obj_gvk := obj_gvk d; obj_namespace := obj_namespace d;
     obj_name := obj_name d; obj_labels := obj_labels d;
     obj_ownerReferences := obj_ownerReferences d;
     obj_deletionTimestamp := obj_deletionTimestamp d;
     obj_annotationConditions := obj_annotationConditions d;
     obj_spec := spec; obj_status := obj_status d;
     obj_conditions := obj_conditions d |}.

Definition with_status (d : InfraObj) (status : gmap string value) : InfraObj :=
  {| obj_gvk := obj_gvk d; obj_namespace := obj_namespace d;
     obj_name := obj_name d; obj_labels := obj_labels d;
     obj_ownerReferences := obj_ownerReferences d;
     obj_deletionTimestamp := obj_deletionTimestamp d;
     obj_annotationConditions := obj_annotationConditions d;
     obj_spec := obj_spec d; obj_status := status;
     obj_conditions := obj_conditions d |}.

Definition with_conditions (d : InfraObj) (conds : list (gmap string value)) : InfraObj :=
  {| obj_gvk := obj_gvk d; obj_namespace := obj_namespace d;
     obj_name := obj_name d; obj_labels := obj_labels d;
     obj_ownerReferences := obj_ownerReferences d;
     obj_deletionTimestamp := obj_deletionTimestamp d;
     obj_annotationConditions := obj_annotationConditions d;
     obj_spec := obj_spec d; obj_status := obj_status d;
     obj_conditions := conds |}.

(** ** Calls that leave the process, and the trace that records them *)

Inductive event (ChildObject : Type) : Type :=
| EvEnqueueAfter (gvk : GroupVersionKind) (namespace name : string) (seconds : Z)
| EvUpdateStatus (obj : InfraObj)
| EvApplyObjects (owner : option InfraObj) (ignorePreviousApplied : bool)
                 (objs : list ChildObject).
Arguments EvEnqueueAfter {ChildObject} gvk namespace name seconds.
Arguments EvUpdateStatus {ChildObject} obj.
Arguments EvApplyObjects {ChildObject} owner ignorePreviousApplied objs.

(** A handler step: it extends the trace and returns a value. *)
Definition M (E A : Type) : Type := list E → A * list E.

#[global] Instance M_ret {E} : MRet (M E) := λ A a tr, (a, tr).
#[global] Instance M_bind {E} : MBind (M E) :=
  λ A B f m tr, let '(a, tr') := m tr in f a tr'.

Definition emit {E} (e : E) : M E unit := λ tr, (tt, (tr ++ [e])%list).

(** Run a step from the empty trace. *)
Definition exec {E A} (m : M E A) : A * list E := m [].

(** What a Go handler returns: [(runtime.Object, error)], either may be nil. *)
Definition ret2 : Type := option InfraObj * option error.

(** [capi.DrainingSucceededCondition] and [capi.DrainingFailedReason]. *)
Definition drainingSucceededCondition : string := "DrainingSucceeded".
Definition DrainingFailedReason : string := "DrainingFailed".

(** [driverArgs], as far as [run] reads it. *)
Record driverArgs : Type := {
  da_RKEMachineStatus : RKEMachineStatus;
  BootstrapSecretName : string;
  BootstrapOptional : bool
}.

(** The library functions, tables and package-level declarations that
    the handlers use and that live outside the sources at hand, with the
    library types that are only passed along. [rangeFields] is the order in
    which Go's [range] visits the entries of a map: any enumeration of
    them. *)
Class Library : Type := {
  Selector : Type;
  RESTConfig : Type;
  ChildObject : Type;
  strings_TrimSpace : string → string;
  path_Join : string → string → string;
  LabelSelectorAsSelector : option LabelSelector → result Selector;
  GetRuntimeCommand : string → string;
  getJobName : string → string;
  getNodeDriverName : GroupVersionKind → string;
  CapiMachineLabel : string;
  pathToMachineFiles : string;
  SchemaToDriverFields : gmap string (gmap string string);
  SSHKeyFields : gmap string bool;
  rangeFields : gmap string string → list (string * string)
}.

Section Handlers.

Context {library : Library}.

(** The [handler] struct: caches, clients and the collaborators that the
    handlers call. Caches are read-only; a client call is logged in the
    trace and its answer is read here. *)
Record handler : Type := {
  pods_List : string → Selector → result (list Pod);
  jobs_Get : string → string → result Job;
  machines_Get : string → string → result Machine;
  namespaces_Get : string → result Namespace;
  rancherClusterCache_Get : string → string → result Cluster;
  kubeconfigManager_GetRESTConfig : Cluster → result RESTConfig;
  etcdmgmt_SafelyRemoved : RESTConfig → string → string → result bool;
  dynamic_EnqueueAfter : GroupVersionKind → string → string → Z → option error;
  dynamic_UpdateStatus : InfraObj → ret2;
  apply_ApplyObjects : option InfraObj → bool → list ChildObject → option error;
  getArgsEnvAndStatus :
    InfraObj → gmap string value → string → bool → result driverArgs;
  objects :
    bool → InfraObj → driverArgs → option (gmap string string) →
    result (list ChildObject)
}.

Variable h : handler.

Abbreviation Ev := (event ChildObject).

Definition EnqueueAfter (gvk : GroupVersionKind) (namespace name : string)
    (seconds : Z) : M Ev (option error) :=
  emit (EvEnqueueAfter gvk namespace name seconds) ;;
  mret (dynamic_EnqueueAfter h gvk namespace name seconds).

Definition UpdateStatus (obj : InfraObj) : M Ev ret2 :=
  emit (EvUpdateStatus obj) ;; mret (dynamic_UpdateStatus h obj).

Definition ApplyObjects (owner : option InfraObj) (ignorePreviousApplied : bool)
    (objs : list ChildObject) : M Ev (option error) :=
  emit (EvApplyObjects owner ignorePreviousApplied objs) ;;
  mret (apply_ApplyObjects h owner ignorePreviousApplied objs).

(** *** Job-status translator *)

(** The loop of [getMachineStatus] that keeps the pod created last. *)
Fixpoint lastPodOf (lastPod : option Pod) (pods : list Pod) : option Pod :=
  match pods with
  | [] => lastPod
  | pod :: rest =>
      match lastPod with
      | None => lastPodOf (Some pod) rest
      | Some lp =>
          if CreationTimestamp lp <? CreationTimestamp pod
          then lastPodOf (Some pod) rest
          else lastPodOf lastPod rest
      end
  end.

(** The loop of [getMachineStatusFromPod] over the container statuses:
    whichever container is found failed, the message is read from
    [ContainerStatuses[0].State.Terminated], a pointer. *)
Fixpoint failedContainerStatus (all rest : list ContainerStatus) (create : bool)
    : outcome RKEMachineStatus :=
  match rest with
  | [] => Returned emptyStatus
  | containerStatus :: rest' =>
      match Terminated containerStatus with
      | Some t =>
          if negb (ExitCode t =? 0) then
            let reason :=
              if create then CreateMachineError else DeleteMachineError in
            match all with
            | first :: _ =>
                match Terminated first with
                | Some t0 =>
                    Returned {| JobComplete := false; JobName := "";
                                FailureReason := reason;
                                FailureMessage := strings_TrimSpace (Message t0) |}
                | None => Panicked
                end
            | [] => Panicked
            end
          else failedContainerStatus all rest' create
      | None => failedContainerStatus all rest' create
      end
  end.

Definition getMachineStatusFromPod (pod : Pod) (create : bool)
    : outcome RKEMachineStatus :=
  match Phase pod with
  | PodSucceeded => Returned completeStatus
  | _ => failedContainerStatus (ContainerStatuses pod) (ContainerStatuses pod) create
  end.

Definition getMachineStatus (job : Job) (create : bool)
    : outcome (RKEMachineStatus * option error) :=
  match job_CompletionTime job with
  | Some _ => Returned (completeStatus, None)
  | None =>
      if Cond_IsTrue "Failed" (job_Conditions job) then
        match LabelSelectorAsSelector (job_Selector job) with
        | Err err => Returned (emptyStatus, Some err)
        | Ok sel =>
            match pods_List h (job_Namespace job) sel with
            | Err err => Returned (emptyStatus, Some err)
            | Ok pods =>
                match lastPodOf None pods with
                | Some lastPod =>
                    match getMachineStatusFromPod lastPod create with
                    | Returned st => Returned (st, None)
                    | Panicked => Panicked
                    end
                | None => Returned (emptyStatus, None)
                end
            end
        end
      else Returned (emptyStatus, None)
  end.


(** *** Status and condition patcher *)

(** [convert.EncodeToMap(state)]: the JSON form of the struct, in which
    false and empty fields are left out. *)
Definition EncodeToMap (state : RKEMachineStatus) : gmap string value :=
  let m : gmap string value := ∅ in
  let m := if JobComplete state then <["jobComplete" := VBool true]> m else m in
  let m := if String.eqb (JobName state) "" then m
           else <["jobName" := VStr (JobName state)]> m in
  let m := if String.eqb (FailureReason state) "" then m
           else <["failureReason" := VStr (FailureReason state)]> m in
  if String.eqb (FailureMessage state) "" then m
  else <["failureMessage" := VStr (FailureMessage state)]> m.

(** [if _, ok := statusData[k]; !ok { statusData[k] = "" }]. *)
Definition defaultEmpty (k : string) (statusData : gmap string value)
    : gmap string value :=
  match statusData !! k with
  | Some _ => statusData
  | None => <[k := VStr ""]> statusData
  end.

(** The desired status keys of [patchStatus], after the reset of the
    failure fields on a completed job. *)
Definition desiredStatusData (state : RKEMachineStatus) : gmap string value :=
  let statusData := EncodeToMap state in
  if JobComplete state
  then defaultEmpty "failureReason" (defaultEmpty "failureMessage" statusData)
  else statusData.

(** The comparison loop of [patchStatus]: some desired key whose string
    form differs from the stored one. *)
Definition statusChanged (d : InfraObj) (statusData : gmap string value) : bool :=
  existsb (λ kv, negb (String.eqb (status_String d kv.1) (ToString kv.2)))
          (map_to_list statusData).

(** [patchStatus]. [status[k] = v] for every desired key is the union that
    prefers [statusData]. *)
Definition patchStatus (obj d : InfraObj) (state : RKEMachineStatus) : M Ev ret2 :=
  let statusData := desiredStatusData state in
  if negb (statusChanged d statusData) then mret (Some obj, None)
  else
    let d := obj in
    UpdateStatus (with_status d (statusData ∪ obj_status d)).

(** [summary.NewCondition]. *)
Definition NewCondition (conditionType status reason message : string)
    : gmap string value :=
  <["type" := VStr conditionType]>
    (<["status" := VStr status]>
       (<["reason" := VStr reason]>
          (<["message" := VStr message]> ∅))).

Definition cond_String (c : gmap string value) (k : string) : string :=
  ToString (getValue c k).

(** [Condition.Equals]: type, status, reason and message. *)
Definition Condition_Equals (c other : gmap string value) : bool :=
  String.eqb (cond_String c "type") (cond_String other "type")
  && String.eqb (cond_String c "status") (cond_String other "status")
  && String.eqb (cond_String c "reason") (cond_String other "reason")
  && String.eqb (cond_String c "message") (cond_String other "message").

(** [summary.GetUnstructuredConditions]: the conditions under
    [status.conditions], then those of the status annotation. *)
Definition GetUnstructuredConditions (d : InfraObj) : list (gmap string value) :=
  (obj_conditions d ++ obj_annotationConditions d)%list.

Definition hasType (conditionType : string) (c : gmap string value) : bool :=
  String.eqb (cond_String c "type") conditionType.

(** The first loop of [setCondition]: true when the first condition of the
    wanted type equals the desired one. *)
Definition conditionUnchanged (conditionType : string)
    (desiredCondition : gmap string value) (d : InfraObj) : bool :=
  match List.find (hasType conditionType) (GetUnstructuredConditions d) with
  | Some c => Condition_Equals desiredCondition c
  | None => false
  end.

(** The second loop of [setCondition]: every condition of the wanted type
    is replaced, and the desired one is appended when there was none. *)
Definition replaceConditions (conditionType : string)
    (desiredCondition : gmap string value) (conditions : list (gmap string value))
    : list (gmap string value) :=
  if existsb (hasType conditionType) conditions
  then List.map (λ c, if hasType conditionType c then desiredCondition else c)
                conditions
  else (conditions ++ [desiredCondition])%list.

Definition setCondition (obj : InfraObj) (conditionType : string)
    (err : option error) : M Ev ret2 :=
  let err := if errors_Is_ErrSkip err then None else err in
  let '(status, reason, message) :=
    match err with
    | Some e => ("False", "Error", error_Error e)
    | None => ("True", "", "")
    end in
  let desiredCondition := NewCondition conditionType status reason message in
  if conditionUnchanged conditionType desiredCondition obj
  then mret (Some obj, err)
  else
    let d := obj in
    let conditions := obj_conditions d in
    '(obj', updateErr) ←
      UpdateStatus
        (with_conditions d (replaceConditions conditionType desiredCondition conditions));
    match err with
    | Some _ => mret (obj', err)
    | None => mret (obj', updateErr)
    end.

(** *** File materializer *)

(** One round of the loop of [constructFilesSecret] on the entry
    [schemaField ↦ driverField]. *)
Definition materializeField (acc : gmap string value * gmap string string)
    (field : string * string) : gmap string value * gmap string string :=
  let '(config, secretData) := acc in
  let '(schemaField, driverField) := field in
  match config !! schemaField with
  | Some (VStr fileContents) =>
      let config := delete schemaField config in
      if String.eqb fileContents "" then (config, secretData)
      else
        let fileName :=
          if default false (SSHKeyFields !! schemaField) then "id_rsa"
          else driverField in
        let fileContents :=
          if negb (HasSuffix fileContents newline)
          then fileContents +:+ newline else fileContents in
        (<[driverField := VStr (path_Join pathToMachineFiles fileName)]> config,
         <[fileName := fileContents]> secretData)
  | _ => acc
  end.

(** [constructFilesSecret]: the secret's data (nil when the driver has no
    entry), the spec map after the in-place updates, and the error, which
    is always nil. *)
Definition constructFilesSecret (driver : string) (config : gmap string value)
    : option (gmap string string) * gmap string value * option error :=
  match SchemaToDriverFields !! driver with
  | Some fields =>
      let '(config', secretData) :=
        fold_left materializeField (rangeFields fields) (config, ∅) in
      (Some secretData, config', None)
  | None => (None, config, None)
  end.

(** *** Create path *)

Definition isSome {A} (o : option A) : bool :=
  match o with
  | Some _ => true
  | None => false
  end.

(** [run]. The accessors of an unstructured object and [data.Convert] do
    not fail; [d] is the converted deep copy, whose spec map the file
    materializer updates in place. *)
Definition run (obj : InfraObj) (create : bool) : M Ev ret2 :=
  if create && isSome (obj_deletionTimestamp obj) then mret (Some obj, None)
  else
    let d := obj in
    let args := obj_spec d in
    let driver := getNodeDriverName (obj_gvk obj) in
    let '(filesSecret, args, err) := constructFilesSecret driver args in
    match err with
    | Some _ => mret (Some obj, err)
    | None =>
        let d := with_spec d args in
        match getArgsEnvAndStatus h d args driver create with
        | Err err => mret (Some obj, Some err)
        | Ok dArgs =>
            if String.eqb (BootstrapSecretName dArgs) ""
               && negb (BootstrapOptional dArgs)
            then
              err ← EnqueueAfter (obj_gvk obj) (obj_namespace obj) (obj_name obj) 2;
              mret (Some obj, err)
            else
              match objects h
                      (negb (String.eqb (ToString (getValue args "providerID")) "")
                       && create)
                      obj dArgs filesSecret with
              | Err err => mret (None, Some err)
              | Ok objs =>
                  err ← ApplyObjects (Some obj) (negb create) objs;
                  match err with
                  | Some _ => mret (None, err)
                  | None =>
                      if create
                      then patchStatus obj d (da_RKEMachineStatus dArgs)
                      else mret (Some obj, None)
                  end
              end
        end
    end.

Definition OnChange (obj : InfraObj) : M Ev ret2 :=
  '(newObj, err) ← run obj true;
  let newObj := default obj newObj in
  setCondition newObj "CreateJob" err.

(** *** Teardown *)

(** [getMachine]: the CAPI machine named by the first owner reference of
    kind Machine; [(nil, nil)] when there is none. *)
Fixpoint getMachineOf (namespace : string) (owners : list OwnerReference)
    : option Machine * option error :=
  match owners with
  | [] => (None, None)
  | owner :: rest =>
      if String.eqb (owner_Kind owner) "Machine" then
        match machines_Get h namespace (owner_Name owner) with
        | Ok m => (Some m, None)
        | Err err => (None, Some err)
        end
      else getMachineOf namespace rest
  end.

Definition getMachine (obj : InfraObj) : option Machine * option error :=
  getMachineOf (obj_namespace obj) (obj_ownerReferences obj).

Definition namespaceIsRemoved (obj : InfraObj) : bool * option error :=
  match namespaces_Get h (obj_namespace obj) with
  | Err err => (false, Some err)
  | Ok ns => (isSome (ns_DeletionTimestamp ns), None)
  end.

(** The part of [doRemove] after the drain gate: the deletion job is
    applied, and the owned objects are removed once it has completed. *)
Definition runDeletionJob (obj d : InfraObj) (infraName : string) : M Ev ret2 :=
  '(obj, err) ← run obj false;
  match err with
  | Some _ => mret (None, err)
  | None =>
      match jobs_Get h (obj_namespace d) (getJobName infraName) with
      | Err err => mret (None, Some err)
      | Ok job =>
          if isSome (job_CompletionTime job) then
            err ← ApplyObjects obj false [];
            match err with
            | Some _ => mret (None, err)
            | None => mret (obj, None)
            end
          else mret (None, Some ErrSkip)
      end
  end.

Definition doRemove (obj : InfraObj) : M Ev ret2 :=
  let d := obj in
  let infraName := obj_name d in
  if negb (status_Bool d "jobComplete")
     && String.eqb (status_String d "failureReason") ""
  then
    mret (Some obj,
          Some (ErrOther ("cannot delete machine " +:+ infraName
                          +:+ " because create job has not finished")))
  else
    let '(machine, err) := getMachine obj in
    if isSome err && negb (IsNotFound err) then mret (None, err)
    else
      match machine with
      | Some machine =>
          if Cond_IsFalse drainingSucceededCondition (machine_Conditions machine)
             && negb (String.eqb
                        (Cond_GetReason drainingSucceededCondition
                                        (machine_Conditions machine))
                        DrainingFailedReason)
          then
            err ← EnqueueAfter (InfrastructureRef machine) (obj_namespace d)
                               infraName 5;
            match err with
            | Some _ => mret (None, err)
            | None => mret (Some obj, Some ErrSkip)
            end
          else runDeletionJob obj d infraName
      | None => runDeletionJob obj d infraName
      end.

Definition etcdRoleLabel : string := "rke.cattle.io/etcd-role".

Definition OnRemove (key : string) (obj : InfraObj) : M Ev ret2 :=
  let '(removed, err) := namespaceIsRemoved obj in
  if isSome err || removed then mret (Some obj, err)
  else
    let d := obj in
    if bool_decide (obj_labels d !! etcdRoleLabel = Some "true") then
      let clusterName := default "" (obj_labels d !! CapiMachineLabel) in
      if String.eqb clusterName "" then
        mret (Some obj,
              Some (ErrOther
                      ("error retrieving the clustername for etcd node, label key "
                       +:+ CapiMachineLabel
                       +:+ " does not appear to exist for dynamic machine "
                       +:+ key)))
      else
        match rancherClusterCache_Get h (obj_namespace d) clusterName with
        | Err err =>
            if IsNotFound (Some err) then doRemove obj
            else mret (Some obj, Some err)
        | Ok cluster =>
            if negb (Time_IsZero (cluster_DeletionTimestamp cluster))
            then doRemove obj
            else
              let '(machine, err) := getMachine obj in
              match err with
              | Some _ => mret (Some obj, err)
              | None =>
                  match machine ≫= NodeRef with
                  | None => doRemove obj
                  | Some nodeName =>
                      match kubeconfigManager_GetRESTConfig h cluster with
                      | Err err => mret (Some obj, Some err)
                      | Ok restConfig =>
                          match etcdmgmt_SafelyRemoved h restConfig
                                  (GetRuntimeCommand (KubernetesVersion cluster))
                                  nodeName with
                          | Err err => mret (Some obj, Some err)
                          | Ok removed =>
                              if negb removed then
                                EnqueueAfter (obj_gvk obj) (obj_namespace d)
                                             (obj_name d) 5 ;;
                                mret (Some obj, Some ErrSkip)
                              else doRemove obj
                          end
                      end
                  end
              end
        end
    else doRemove obj.


(** *** Notions used in the statements *)

(** Some container status has a terminated state with a non-zero exit code. *)
Definition someContainerFailed (statuses : list ContainerStatus) : bool :=
  existsb (λ cs, match Terminated cs with
                 | Some t => negb (ExitCode t =? 0)
                 | None => false
                 end) statuses.

(** The message of the error with which [doRemove] refuses a resource whose
    create job is still pending. *)
Definition createJobNotFinished (infraName : string) : error :=
  ErrOther ("cannot delete machine " +:+ infraName
            +:+ " because create job has not finished").

(** A trace in which the deletion-job step was reached: objects were
    applied on behalf of the resource. *)
Definition reachesDeletionJob (tr : list Ev) : bool :=
  existsb (λ e, match e with
                | EvApplyObjects _ _ _ => true
                | _ => false
                end) tr.

(** The error that [setCondition] reports on: the skip sentinel counts as
    no error. *)
Definition settledError (err : option error) : option error :=
  if errors_Is_ErrSkip err then None else err.

(** The condition that [setCondition] computes from the error. *)
Definition computedCondition (conditionType : string) (err : option error)
    : gmap string value :=
  match settledError err with
  | Some e => NewCondition conditionType "False" "Error" (error_Error e)
  | None => NewCondition conditionType "True" "" ""
  end.

(** The file name under which a field is stored: [id_rsa] for an SSH-key
    field, the driver field otherwise. *)
Definition fileNameOf (schemaField driverField : string) : string :=
  if default false (SSHKeyFields !! schemaField) then "id_rsa" else driverField.

(** The stored contents: a newline is added unless one ends the contents. *)
Definition withTrailingNewline (fileContents : string) : string :=
  if negb (HasSuffix fileContents newline)
  then fileContents +:+ newline else fileContents.

(** The declared fields of a driver do not interfere: no driver field is
    another entry's schema field or driver field, and no two entries are
    stored under the same file name. *)
Definition independentFields (fields : gmap string string) : Prop :=
  ∀ s1 d1 s2 d2,
    fields !! s1 = Some d1 → fields !! s2 = Some d2 → s1 ≠ s2 →
    d1 ≠ s2 ∧ d1 ≠ d2 ∧ fileNameOf s1 d1 ≠ fileNameOf s2 d2.

End Handlers.

(** ** A concrete environment

    One instance of the library functions, tables and caches, on which the
    statements below are exercised. *)

Definition asciiIsSpace (c : ascii) : bool :=
  let n := nat_of_ascii c in
  ((n =? 32) || ((9 <=? n) && (n <=? 13)))%nat.

Fixpoint trimLeft (s : string) : string :=
  match s with
  | EmptyString => EmptyString
  | String c r => if asciiIsSpace c then trimLeft r else s
  end.

(** [strings.TrimSpace] on ASCII text. *)
Definition asciiTrimSpace (s : string) : string :=
  String.rev (trimLeft (String.rev (trimLeft s))).

(** [path.Join] on two clean elements. *)
Definition joinPath (dir file : string) : string := dir +:+ "/" +:+ file.

Definition matchLabelsSelector (ps : option LabelSelector)
    : result (gmap string string) :=
  match ps with
  | Some s => Ok (MatchLabels s)
  | None => Ok ∅
  end.

Definition amazonec2Fields : gmap string string :=
  <["sshKeyContents" := "sshKeypath"]> {[ "userdata" := "userdata" ]}.

Definition sampleDriverFields : gmap string (gmap string string) :=
  {[ "amazonec2" := amazonec2Fields ]}.

Definition sampleSSHKeyFields : gmap string bool :=
  {[ "sshKeyContents" := true ]}.

Definition sampleLibrary : Library :=
  {| Selector := gmap string string;
     RESTConfig := string;
     ChildObject := string;
     strings_TrimSpace := asciiTrimSpace;
     path_Join := joinPath;
     LabelSelectorAsSelector := matchLabelsSelector;
     GetRuntimeCommand := λ _, "rke2";
     getJobName := λ name, name +:+ "-machine-provision";
     getNodeDriverName := λ _, "amazonec2";
     CapiMachineLabel := "cluster.x-k8s.io/cluster-name";
     pathToMachineFiles := "/path/to/machine/files";
     SchemaToDriverFields := sampleDriverFields;
     SSHKeyFields := sampleSSHKeyFields;
     rangeFields := map_to_list |}.

Definition sampleGVK : GroupVersionKind :=
  {| Group := "rke-machine.cattle.io"; Version := "v1"; Kind := "Amazonec2Machine" |}.

Definition sampleCluster : Cluster :=
  {| cluster_Name := "c1"; cluster_DeletionTimestamp := None;
     KubernetesVersion := "v1.21.5+rke2r1" |}.

Definition sampleMachine : Machine :=
  {| machine_Name := "machine-1"; InfrastructureRef := sampleGVK;
     NodeRef := Some "node-1"; machine_Conditions := [] |}.

(** A handler whose caches answer every lookup, whose deletion job has
    completed and whose client calls succeed. *)
Definition sampleHandler (namespaceDeletion : option Time) (safelyRemoved : bool)
    (pods : list Pod) : @handler sampleLibrary :=
  @Build_handler sampleLibrary
    (* pods_List *) (λ _ _, Ok pods)
    (* jobs_Get *)
    (λ namespace name,
       Ok {| job_Namespace := namespace; job_Name := name; job_Selector := None;
             job_CompletionTime := Some 1700000000; job_Conditions := [] |})
    (* machines_Get *)
    (λ _ name,
       Ok {| machine_Name := name; InfrastructureRef := sampleGVK;
             NodeRef := Some "node-1"; machine_Conditions := [] |})
    (* namespaces_Get *)
    (λ name, Ok {| ns_Name := name; ns_DeletionTimestamp := namespaceDeletion |})
    (* rancherClusterCache_Get *)
    (λ _ name,
       Ok {| cluster_Name := name; cluster_DeletionTimestamp := None;
             KubernetesVersion := "v1.21.5+rke2r1" |})
    (* kubeconfigManager_GetRESTConfig *) (λ _, Ok "rest-config")
    (* etcdmgmt_SafelyRemoved *) (λ _ _ _, Ok safelyRemoved)
    (* dynamic_EnqueueAfter *) (λ _ _ _ _, None)
    (* dynamic_UpdateStatus *) (λ obj, (Some obj, None))
    (* apply_ApplyObjects *) (λ _ _ _, None)
    (* getArgsEnvAndStatus *)
    (λ _ _ _ _,
       Ok {| da_RKEMachineStatus := emptyStatus;
             BootstrapSecretName := "bootstrap"; BootstrapOptional := false |})
    (* objects *) (λ _ _ _ _, Ok ["job"; "secret"]).

Definition deletedNamespaceHandler : @handler sampleLibrary :=
  sampleHandler (Some 1700000200) false [].

Definition liveHandler : @handler sampleLibrary :=
  sampleHandler None false [].

Definition sampleObj (labels : gmap string string) (status : gmap string value)
    (conditions : list (gmap string value)) : InfraObj :=
  {| obj_gvk := sampleGVK; obj_namespace := "fleet-default"; obj_name := "pool1-abcde";
     obj_labels := labels;
     obj_ownerReferences := [ {| owner_Kind := "Machine"; owner_Name := "machine-1" |} ];
     obj_deletionTimestamp := Some 1700000100;
     obj_annotationConditions := [];
     obj_spec := ∅; obj_status := status; obj_conditions := conditions |}.

(** An etcd member of cluster [c1] whose create job has completed. *)
Definition etcdObj : InfraObj :=
  sampleObj (<["rke.cattle.io/etcd-role" := "true"]>
               {[ "cluster.x-k8s.io/cluster-name" := "c1" ]})
            {[ "jobComplete" := VBool true ]} [].

(** A worker whose create job has completed. *)
Definition workerObj : InfraObj :=
  sampleObj ∅ {[ "jobComplete" := VBool true ]} [].

(** A machine whose create job is still pending. *)
Definition pendingObj : InfraObj := sampleObj ∅ ∅ [].

(** A machine whose create job had failed. *)
Definition failedObj : InfraObj :=
  sampleObj ∅ (<["failureReason" := VStr "CreateError"]>
                 {[ "failureMessage" := VStr "quota exceeded" ]}) [].

(** A machine on which the condition CreateJob already reports an error. *)
Definition erroredObj : InfraObj :=
  sampleObj ∅ ∅ [ NewCondition "CreateJob" "False" "Error" "boom" ].

Definition failedJob (completion : option Time) : Job :=
  {| job_Namespace := "fleet-default"; job_Name := "pool1-abcde-machine-provision";
     job_Selector := None; job_CompletionTime := completion;
     job_Conditions := [ {| cond_Type := "Failed"; cond_Status := "True";
                            cond_Reason := "BackoffLimitExceeded" |} ] |}.

(** A pod whose first container is still running while its second one has
    terminated with exit code 7. *)
Definition sidecarPod : Pod :=
  {| pod_Name := "pool1-abcde-machine-provision-x2x9k";
     CreationTimestamp := 1700000000; Phase := PodFailed;
     ContainerStatuses :=
       [ {| cs_Name := "proxy"; Terminated := None |};
         {| cs_Name := "machine";
            Terminated := Some {| ExitCode := 7; Message := "boom" |} |} ] |}.

(** The same pod with its containers in the other order. *)
Definition machineFirstPod : Pod :=
  {| pod_Name := "pool1-abcde-machine-provision-x2x9k";
     CreationTimestamp := 1700000000; Phase := PodFailed;
     ContainerStatuses :=
       [ {| cs_Name := "machine";
            Terminated := Some {| ExitCode := 7; Message := " boom " |} |};
         {| cs_Name := "proxy"; Terminated := None |} ] |}.

(** ** Properties *)

Section Properties.

Context {library : Library} (h : handler).

Local Abbreviation Ev := (event ChildObject).

(** *** Properties of the job-status translator *)

Lemma lastPodOf_some (lp : Pod) (pods : list Pod) :
  ∃ p, lastPodOf (Some lp) pods = Some p.
Proof.
  revert lp. induction pods as [|pod rest IH]; intros lp; simpl.
  - by exists lp.
  - destruct (CreationTimestamp lp <? CreationTimestamp pod); apply IH.
Qed.

(** The pod that is kept is one of the candidates and none was created
    after it. *)
Lemma lastPodOf_latest (lp : Pod) (pods : list Pod) (p : Pod) :
  lastPodOf (Some lp) pods = Some p →
  In p (lp :: pods)
  ∧ ∀ q, In q (lp :: pods) → CreationTimestamp q <= CreationTimestamp p.
Proof.
  revert lp. induction pods as [|pod rest IH]; intros lp H; simpl in H.
  - injection H as <-. split; [by left|]. intros q [<-|[]]. lia.
  - destruct (Z.ltb_spec (CreationTimestamp lp) (CreationTimestamp pod)) as [Hlt|Hge];
      destruct (IH _ H) as [Hin Hmax]; split.
    + right. exact Hin.
    + intros q [<-|[<-|Hq]].
      * specialize (Hmax pod (or_introl eq_refl)). lia.
      * apply Hmax. by left.
      * apply Hmax. by right.
    + destruct Hin as [<-|Hin]; [by left|right; by right].
    + intros q [<-|[<-|Hq]].
      * apply Hmax. by left.
      * specialize (Hmax lp (or_introl eq_refl)). lia.
      * apply Hmax. by right.
Qed.

Lemma lastPodOf_nil_iff (pods : list Pod) :
  lastPodOf None pods = None ↔ pods = [].
Proof.
  destruct pods as [|pod rest]; simpl; [done|].
  destruct (lastPodOf_some pod rest) as [p ->]. split; discriminate.
Qed.

Lemma failedContainerStatus_none (all rest : list ContainerStatus) (create : bool) :
  someContainerFailed rest = false →
  failedContainerStatus all rest create = Returned emptyStatus.
Proof.
  induction rest as [|cs rest IH]; simpl; [done|].
  destruct (Terminated cs) as [t|]; simpl.
  - destruct (ExitCode t =? 0); simpl; [exact IH|discriminate].
  - exact IH.
Qed.

Lemma failedContainerStatus_some (first : ContainerStatus)
    (others rest : list ContainerStatus) (create : bool) :
  someContainerFailed rest = true →
  failedContainerStatus (first :: others) rest create =
    match Terminated first with
    | Some t0 =>
        Returned {| JobComplete := false; JobName := "";
                    FailureReason :=
                      if create then CreateMachineError else DeleteMachineError;
                    FailureMessage := strings_TrimSpace (Message t0) |}
    | None => Panicked
    end.
Proof.
  induction rest as [|cs rest IH]; simpl; [discriminate|].
  destruct (Terminated cs) as [t|]; simpl.
  - destruct (ExitCode t =? 0); simpl; [exact IH|done].
  - exact IH.
Qed.

(** When the first container status does have a terminated state, a failed
    pod yields the failure reason of the action and the trimmed message of
    that first status. *)
Lemma getMachineStatusFromPod_failed (pod : Pod) (create : bool)
    (first : ContainerStatus) (others : list ContainerStatus)
    (t0 : ContainerStateTerminated) :
  Phase pod ≠ PodSucceeded →
  ContainerStatuses pod = first :: others →
  Terminated first = Some t0 →
  someContainerFailed (ContainerStatuses pod) = true →
  getMachineStatusFromPod pod create =
    Returned {| JobComplete := false; JobName := "";
                FailureReason :=
                  if create then CreateMachineError else DeleteMachineError;
                FailureMessage := strings_TrimSpace (Message t0) |}.
Proof.
  intros Hphase Hcs Hfirst Hfailed. unfold getMachineStatusFromPod.
  assert (failedContainerStatus (ContainerStatuses pod) (ContainerStatuses pod) create
          = Returned {| JobComplete := false; JobName := "";
                FailureReason :=
                  if create then CreateMachineError else DeleteMachineError;
                FailureMessage := strings_TrimSpace (Message t0) |}) as ->.
  { rewrite Hcs at 1. rewrite failedContainerStatus_some by exact Hfailed.
    by rewrite Hfirst. }
  by destruct (Phase pod).
Qed.

(** The translator on a failed job: when the pod it keeps has not
    succeeded, some container of it has failed and its first container
    status has a terminated state, the summary carries the failure reason
    of the action and the trimmed message of that first status. *)
Lemma getMachineStatus_failed_pod (job : Job) (create : bool) (sel : Selector)
    (pods : list Pod) (pod : Pod) (first : ContainerStatus)
    (others : list ContainerStatus) (t0 : ContainerStateTerminated) :
  job_CompletionTime job = None →
  Cond_IsTrue "Failed" (job_Conditions job) = true →
  LabelSelectorAsSelector (job_Selector job) = Ok sel →
  pods_List h (job_Namespace job) sel = Ok pods →
  lastPodOf None pods = Some pod →
  Phase pod ≠ PodSucceeded →
  ContainerStatuses pod = first :: others →
  Terminated first = Some t0 →
  someContainerFailed (ContainerStatuses pod) = true →
  getMachineStatus h job create =
    Returned ({| JobComplete := false; JobName := "";
                 FailureReason :=
                   if create then CreateMachineError else DeleteMachineError;
                 FailureMessage := strings_TrimSpace (Message t0) |}, None).
Proof.
  intros Hopen Hfailed Hsel Hpods Hlast Hphase Hcs Hfirst Hsome.
  unfold getMachineStatus. rewrite Hopen, Hfailed, Hsel, Hpods, Hlast.
  by rewrite (getMachineStatusFromPod_failed pod create first others t0).
Qed.

(** C8: a job that has a completion timestamp is translated to the summary
    with jobComplete true and no failure fields, whatever the pod cache
    holds and whatever the job's conditions are. *)
Theorem getMachineStatus_completion_time (job : Job) (create : bool) (t : Time) :
  job_CompletionTime job = Some t →
  getMachineStatus h job create = Returned (completeStatus, None)
  ∧ JobComplete completeStatus = true
  ∧ FailureReason completeStatus = ""
  ∧ FailureMessage completeStatus = "".
Proof.
  intros Hdone. unfold getMachineStatus. rewrite Hdone. done.
Qed.

(** C10: a job without a completion timestamp whose Failed condition is
    true and whose selector matches no pod is translated to the empty
    summary: jobComplete false, no failure reason and no failure message. *)
Theorem getMachineStatus_failed_without_pods (job : Job) (create : bool)
    (sel : Selector) :
  job_CompletionTime job = None →
  Cond_IsTrue "Failed" (job_Conditions job) = true →
  LabelSelectorAsSelector (job_Selector job) = Ok sel →
  pods_List h (job_Namespace job) sel = Ok [] →
  getMachineStatus h job create = Returned (emptyStatus, None)
  ∧ JobComplete emptyStatus = false
  ∧ FailureReason emptyStatus = ""
  ∧ FailureMessage emptyStatus = "".
Proof.
  intros Hopen Hfailed Hsel Hpods. unfold getMachineStatus.
  rewrite Hopen, Hfailed, Hsel, Hpods. done.
Qed.


(** *** Properties of the teardown path *)

Lemma doRemove_pending (obj : InfraObj) :
  status_Bool obj "jobComplete" = false →
  status_String obj "failureReason" = "" →
  doRemove h obj = mret (Some obj, Some (createJobNotFinished (obj_name obj))).
Proof.
  intros Hjob Hreason. unfold doRemove. by rewrite Hjob, Hreason.
Qed.

Lemma OnRemove_plain (key : string) (obj : InfraObj) (ns : Namespace) :
  namespaces_Get h (obj_namespace obj) = Ok ns →
  ns_DeletionTimestamp ns = None →
  obj_labels obj !! etcdRoleLabel ≠ Some "true" →
  OnRemove h key obj = doRemove h obj.
Proof.
  intros Hns Hlive Hrole. unfold OnRemove, namespaceIsRemoved.
  rewrite Hns, Hlive. simpl. by rewrite bool_decide_eq_false_2.
Qed.

(** C2: a resource whose stored status has jobComplete false and an empty
    failureReason is refused by [doRemove] with an error that is not the
    skip sentinel and whose message names the resource and says that the
    create job has not finished; the object comes back unchanged and no
    call leaves the process, so nothing is deleted. The same is the
    outcome of [OnRemove] once the namespace guard has passed and the
    consensus gate does not apply. *)
Theorem doRemove_create_job_not_finished (obj : InfraObj) :
  status_Bool obj "jobComplete" = false →
  status_String obj "failureReason" = "" →
  exec (doRemove h obj)
    = ((Some obj,
        Some (ErrOther ("cannot delete machine " +:+ obj_name obj
                        +:+ " because create job has not finished"))), [])
  ∧ errors_Is_ErrSkip (Some (createJobNotFinished (obj_name obj))) = false
  ∧ ∀ key ns,
      namespaces_Get h (obj_namespace obj) = Ok ns →
      ns_DeletionTimestamp ns = None →
      obj_labels obj !! etcdRoleLabel ≠ Some "true" →
      exec (OnRemove h key obj)
        = ((Some obj, Some (createJobNotFinished (obj_name obj))), []).
Proof.
  intros Hjob Hreason. split; [|split].
  - by rewrite doRemove_pending.
  - done.
  - intros key ns Hns Hlive Hrole.
    rewrite (OnRemove_plain key obj ns Hns Hlive Hrole).
    by rewrite doRemove_pending.
Qed.

(** C3, as the code has it: when the namespace of the resource carries a
    deletion timestamp, [OnRemove] returns the object unchanged with no
    error and without any call leaving the process; no ordering gate is
    consulted, and no deletion job is constructed or run. *)
Theorem OnRemove_namespace_removed (key : string) (obj : InfraObj)
    (ns : Namespace) (t : Time) :
  namespaces_Get h (obj_namespace obj) = Ok ns →
  ns_DeletionTimestamp ns = Some t →
  exec (OnRemove h key obj) = ((Some obj, None), [])
  ∧ reachesDeletionJob (exec (OnRemove h key obj)).2 = false.
Proof.
  intros Hns Hgone.
  assert (OnRemove h key obj = mret (Some obj, None)) as ->; [|done].
  unfold OnRemove, namespaceIsRemoved. by rewrite Hns, Hgone.
Qed.

(** C1, as the code has it: for a resource whose namespace is found and is
    not being deleted, that carries the etcd-role marker, whose owning
    cluster exists and is not being deleted, whose machine has a bound
    node, for whose cluster a REST config is obtained, and whose node the
    safe-removal check reports as not yet removed, [OnRemove] schedules
    exactly one re-check after 5 seconds and returns the object unchanged
    with the skip sentinel; the deletion-job step is not reached. *)
Theorem OnRemove_etcd_not_safely_removed (key : string) (obj : InfraObj)
    (ns : Namespace) (clusterName : string) (cluster : Cluster)
    (machine : Machine) (nodeName : string) (restConfig : RESTConfig) :
  namespaces_Get h (obj_namespace obj) = Ok ns →
  ns_DeletionTimestamp ns = None →
  obj_labels obj !! etcdRoleLabel = Some "true" →
  obj_labels obj !! CapiMachineLabel = Some clusterName →
  clusterName ≠ "" →
  rancherClusterCache_Get h (obj_namespace obj) clusterName = Ok cluster →
  Time_IsZero (cluster_DeletionTimestamp cluster) = true →
  getMachine h obj = (Some machine, None) →
  NodeRef machine = Some nodeName →
  kubeconfigManager_GetRESTConfig h cluster = Ok restConfig →
  etcdmgmt_SafelyRemoved h restConfig
    (GetRuntimeCommand (KubernetesVersion cluster)) nodeName = Ok false →
  exec (OnRemove h key obj)
    = ((Some obj, Some ErrSkip),
       [EvEnqueueAfter (obj_gvk obj) (obj_namespace obj) (obj_name obj) 5])
  ∧ reachesDeletionJob (exec (OnRemove h key obj)).2 = false.
Proof.
  intros Hns Hlive Hrole Hlabel Hname Hcluster Hkept Hmachine Hnode Hconfig Hcheck.
  assert (OnRemove h key obj
          = (EnqueueAfter h (obj_gvk obj) (obj_namespace obj) (obj_name obj) 5 ;;
             mret (Some obj, Some ErrSkip))) as ->; [|done].
  unfold OnRemove, namespaceIsRemoved. rewrite Hns, Hlive. simpl.
  rewrite bool_decide_eq_true_2 by exact Hrole.
  rewrite Hlabel. simpl.
  destruct (String.eqb_spec clusterName "") as [->|_]; [done|].
  rewrite Hcluster, Hkept. simpl. rewrite Hmachine. simpl.
  rewrite Hnode, Hconfig, Hcheck. done.
Qed.


(** *** Properties of the status patcher *)

Lemma statusChanged_false_iff (d : InfraObj) (statusData : gmap string value) :
  statusChanged d statusData = false
  ↔ ∀ k v, statusData !! k = Some v → status_String d k = ToString v.
Proof.
  unfold statusChanged. split.
  - intros Hno k v Hkv.
    destruct (String.eqb_spec (status_String d k) (ToString v)) as [|Hne]; [done|].
    assert (existsb (λ kv, negb (String.eqb (status_String d kv.1) (ToString kv.2)))
                    (map_to_list statusData) = true) as Hyes; [|congruence].
    apply existsb_exists. exists (k, v). split.
    + apply list_elem_of_In, elem_of_map_to_list, Hkv.
    + simpl. by apply negb_true_iff, String.eqb_neq.
  - intros Hsame. apply not_true_is_false. intros Hyes.
    apply existsb_exists in Hyes as [[k v] [Hin Hne]].
    apply list_elem_of_In, elem_of_map_to_list in Hin.
    simpl in Hne. apply negb_true_iff, String.eqb_neq in Hne.
    by apply Hne, Hsame.
Qed.

Lemma statusChanged_true (d : InfraObj) (statusData : gmap string value)
    (k : string) (v : value) :
  statusData !! k = Some v →
  status_String d k ≠ ToString v →
  statusChanged d statusData = true.
Proof.
  intros Hkv Hne. apply not_false_is_true. intros Hno.
  by apply Hne, (proj1 (statusChanged_false_iff d statusData) Hno).
Qed.

(** On a completed job without failure fields both failure keys are
    desired, with the empty string. *)
Lemma desiredStatusData_complete (state : RKEMachineStatus) :
  JobComplete state = true →
  FailureReason state = "" →
  FailureMessage state = "" →
  desiredStatusData state !! "failureReason" = Some (VStr "")
  ∧ desiredStatusData state !! "failureMessage" = Some (VStr "").
Proof.
  intros Hdone Hreason Hmessage.
  unfold desiredStatusData, EncodeToMap. rewrite Hdone, Hreason, Hmessage. simpl.
  destruct (String.eqb (JobName state) ""); by vm_compute.
Qed.

Lemma patchStatus_unchanged (obj d : InfraObj) (state : RKEMachineStatus) :
  statusChanged d (desiredStatusData state) = false →
  patchStatus h obj d state = mret (Some obj, None).
Proof. intros Hno. unfold patchStatus. by rewrite Hno. Qed.

Lemma patchStatus_changed (obj d : InfraObj) (state : RKEMachineStatus) :
  statusChanged d (desiredStatusData state) = true →
  patchStatus h obj d state
    = UpdateStatus h (with_status obj (desiredStatusData state ∪ obj_status obj)).
Proof. intros Hyes. unfold patchStatus. by rewrite Hyes. Qed.

(** What [patchStatus] hands to the status update carries every desired key. *)
Lemma patched_lookup (obj : InfraObj) (statusData : gmap string value)
    (k : string) (v : value) :
  statusData !! k = Some v →
  obj_status (with_status obj (statusData ∪ obj_status obj)) !! k = Some v.
Proof. intros Hkv. simpl. by apply lookup_union_Some_l. Qed.

(** C5: for a desired status with jobComplete true and no failure reason
    and message, [patchStatus] writes the empty string for both failure
    fields: a stored failure field that was not empty forces the status
    update, every update it performs carries both keys with the empty
    string, and when it performs none the stored fields already read as
    empty. *)
Theorem patchStatus_clears_failure_fields (obj d : InfraObj)
    (state : RKEMachineStatus) :
  JobComplete state = true →
  FailureReason state = "" →
  FailureMessage state = "" →
  (status_String d "failureReason" ≠ "" ∨ status_String d "failureMessage" ≠ "" →
   ∃ w, exec (patchStatus h obj d state) = (dynamic_UpdateStatus h w, [EvUpdateStatus w]))
  ∧ (∀ w, In (EvUpdateStatus w) (exec (patchStatus h obj d state)).2 →
          obj_status w !! "failureReason" = Some (VStr "")
          ∧ obj_status w !! "failureMessage" = Some (VStr "")
          ∧ status_String w "failureReason" = ""
          ∧ status_String w "failureMessage" = "")
  ∧ ((exec (patchStatus h obj d state)).2 = [] →
     status_String d "failureReason" = "" ∧ status_String d "failureMessage" = "").
Proof.
  intros Hdone Hreason Hmessage.
  destruct (desiredStatusData_complete state Hdone Hreason Hmessage) as [Hr Hm].
  split; [|split].
  - intros Hstale.
    exists (with_status obj (desiredStatusData state ∪ obj_status obj)).
    rewrite patchStatus_changed; [done|].
    destruct Hstale as [Hne|Hne];
      [apply (statusChanged_true d _ _ _ Hr)|apply (statusChanged_true d _ _ _ Hm)];
      exact Hne.
  - intros w Hin.
    destruct (statusChanged d (desiredStatusData state)) eqn:Hchanged.
    + rewrite patchStatus_changed in Hin by exact Hchanged.
      destruct Hin as [Hw|[]]. injection Hw as <-.
      unfold status_String, getValue.
      rewrite (patched_lookup obj _ _ _ Hr), (patched_lookup obj _ _ _ Hm). done.
    + rewrite patchStatus_unchanged in Hin by exact Hchanged. destruct Hin.
  - intros Hquiet.
    destruct (statusChanged d (desiredStatusData state)) eqn:Hchanged.
    + rewrite patchStatus_changed in Hquiet by exact Hchanged. discriminate.
    + split;
        [apply (proj1 (statusChanged_false_iff d _) Hchanged _ _ Hr)
        |apply (proj1 (statusChanged_false_iff d _) Hchanged _ _ Hm)].
Qed.

(** C6: when the string form of every desired field equals the stored
    value, [patchStatus] returns the object unchanged and performs no
    status update; and of two calls in succession with the same desired
    status the second performs none: either the first call already wrote
    nothing, or it wrote [w] and the call on the resource as written
    finds nothing to change. *)
Theorem patchStatus_no_write_when_unchanged (obj d : InfraObj)
    (state : RKEMachineStatus) :
  ((∀ k v, desiredStatusData state !! k = Some v →
           status_String d k = ToString v) →
   exec (patchStatus h obj d state) = ((Some obj, None), []))
  ∧ (exec (patchStatus h obj d state) = ((Some obj, None), [])
     ∨ ∃ w, exec (patchStatus h obj d state)
              = (dynamic_UpdateStatus h w, [EvUpdateStatus w])
            ∧ ∀ d', obj_status d' = obj_status w →
                    exec (patchStatus h w d' state) = ((Some w, None), [])).
Proof.
  split.
  - intros Hsame. rewrite patchStatus_unchanged; [done|].
    by apply statusChanged_false_iff.
  - destruct (statusChanged d (desiredStatusData state)) eqn:Hchanged.
    + right. rewrite patchStatus_changed by exact Hchanged.
      eexists. split; [reflexivity|]. intros d' Hview.
      rewrite patchStatus_unchanged; [done|].
      apply statusChanged_false_iff. intros k v Hkv.
      unfold status_String, getValue. rewrite Hview.
      by rewrite (patched_lookup obj _ _ _ Hkv).
    + left. by rewrite patchStatus_unchanged.
Qed.

(** *** Properties of the condition patcher *)

Lemma setCondition_unfold (obj : InfraObj) (conditionType : string)
    (err : option error) :
  setCondition h obj conditionType err =
    if conditionUnchanged conditionType (computedCondition conditionType err) obj
    then mret (Some obj, settledError err)
    else
      '(obj', updateErr) ←
        UpdateStatus h
          (with_conditions obj
             (replaceConditions conditionType (computedCondition conditionType err)
                                (obj_conditions obj)));
      match settledError err with
      | Some _ => mret (obj', settledError err)
      | None => mret (obj', updateErr)
      end.
Proof. by destruct err as [[]|]. Qed.

Lemma NewCondition_fields (conditionType status reason message : string) :
  cond_String (NewCondition conditionType status reason message) "type" = conditionType
  ∧ cond_String (NewCondition conditionType status reason message) "status" = status
  ∧ cond_String (NewCondition conditionType status reason message) "reason" = reason
  ∧ cond_String (NewCondition conditionType status reason message) "message" = message.
Proof. by vm_compute. Qed.

Lemma computedCondition_type (conditionType : string) (err : option error) :
  cond_String (computedCondition conditionType err) "type" = conditionType.
Proof.
  unfold computedCondition. destruct (settledError err); apply NewCondition_fields.
Qed.

Lemma hasType_computedCondition (conditionType : string) (err : option error) :
  hasType conditionType (computedCondition conditionType err) = true.
Proof.
  unfold hasType. rewrite computedCondition_type. apply String.eqb_refl.
Qed.

Lemma Condition_Equals_refl (c : gmap string value) : Condition_Equals c c = true.
Proof. unfold Condition_Equals. by rewrite !String.eqb_refl. Qed.

(** After the second loop of [setCondition], the first condition of the
    wanted type is the desired one. *)
Lemma find_replaceConditions (conditionType : string)
    (desired : gmap string value) (conditions others : list (gmap string value)) :
  hasType conditionType desired = true →
  List.find (hasType conditionType)
            (replaceConditions conditionType desired conditions ++ others)%list
    = Some desired.
Proof.
  intros Hdesired. unfold replaceConditions.
  destruct (existsb (hasType conditionType) conditions) eqn:Hfound.
  - induction conditions as [|c rest IH]; simpl in *; [discriminate|].
    destruct (hasType conditionType c) eqn:Hc; simpl.
    + by rewrite Hdesired.
    + rewrite Hc. by apply IH.
  - induction conditions as [|c rest IH]; simpl in *.
    + by rewrite Hdesired.
    + apply orb_false_iff in Hfound as [Hc Hrest]. rewrite Hc. by apply IH.
Qed.

(** C7, as the code has it: when the first existing condition of the
    wanted type equals the computed condition on type, status, reason and
    message, [setCondition] performs no status update and returns the
    object together with the error it was given (none for a nil error and
    for the skip sentinel); and two calls in succession with the same error
    perform at most one status update: either the first call wrote nothing,
    or it wrote [w] and the call on the resource as written writes
    nothing. *)
Theorem setCondition_no_write_when_unchanged (obj : InfraObj)
    (conditionType : string) (err : option error) :
  (∀ c, List.find (hasType conditionType) (GetUnstructuredConditions obj) = Some c →
        cond_String c "status"
          = cond_String (computedCondition conditionType err) "status" →
        cond_String c "reason"
          = cond_String (computedCondition conditionType err) "reason" →
        cond_String c "message"
          = cond_String (computedCondition conditionType err) "message" →
        exec (setCondition h obj conditionType err)
          = ((Some obj, settledError err), []))
  ∧ (exec (setCondition h obj conditionType err) = ((Some obj, settledError err), [])
     ∨ ∃ w, (exec (setCondition h obj conditionType err)).2 = [EvUpdateStatus w]
            ∧ exec (setCondition h w conditionType err)
              = ((Some w, settledError err), [])).
Proof.
  split.
  - intros c Hfirst Hstatus Hreason Hmessage.
    rewrite setCondition_unfold. unfold conditionUnchanged. rewrite Hfirst.
    assert (Condition_Equals (computedCondition conditionType err) c = true) as ->;
      [|done].
    apply find_some in Hfirst as [_ Htype].
    unfold hasType in Htype. apply String.eqb_eq in Htype.
    unfold Condition_Equals.
    rewrite computedCondition_type, Htype, <- Hstatus, <- Hreason, <- Hmessage.
    by rewrite !String.eqb_refl.
  - rewrite setCondition_unfold.
    destruct (conditionUnchanged conditionType _ obj); [by left|right].
    exists (with_conditions obj
              (replaceConditions conditionType
                 (computedCondition conditionType err) (obj_conditions obj))).
    split.
    + unfold exec, UpdateStatus, emit, mbind, M_bind, mret, M_ret. simpl.
      destruct (dynamic_UpdateStatus h _) as [obj' updateErr].
      by destruct (settledError err).
    + rewrite setCondition_unfold.
      unfold conditionUnchanged, GetUnstructuredConditions. simpl.
      rewrite find_replaceConditions by apply hasType_computedCondition.
      by rewrite Condition_Equals_refl.
Qed.

(** *** Properties of the file materializer *)

Lemma string_app_cons (c : ascii) (p t : string) :
  String c p +:+ t = String c (p +:+ t).
Proof. reflexivity. Qed.

Lemma string_length_app (p t : string) :
  String.length (p +:+ t) = (String.length p + String.length t)%nat.
Proof.
  induction p as [|c p IH]; [done|].
  rewrite string_app_cons. simpl. by rewrite IH.
Qed.

Lemma string_app_assoc (p q t : string) : (p +:+ q) +:+ t = p +:+ (q +:+ t).
Proof.
  induction p as [|c p IH]; [done|].
  rewrite !string_app_cons. by rewrite IH.
Qed.

Lemma string_app_inv_tail (t p q : string) : p +:+ t = q +:+ t → p = q.
Proof.
  intros Heq.
  assert (String.length p = String.length q) as Hlen.
  { apply (f_equal String.length) in Heq. rewrite !string_length_app in Heq. lia. }
  revert q Heq Hlen. induction p as [|c p IH]; intros [|c' q] Heq Hlen;
    simpl in Hlen; try done.
  rewrite !string_app_cons in Heq. injection Heq as -> Heq.
  f_equal. apply IH; [done|lia].
Qed.

Lemma substring_all (t : string) : substring 0 (String.length t) t = t.
Proof. induction t as [|c t IH]; simpl; [done|]. by rewrite IH. Qed.

Lemma substring_skip (p t : string) (m : nat) :
  substring (String.length p) m (p +:+ t) = substring 0 m t.
Proof.
  induction p as [|c p IH]; [done|].
  rewrite string_app_cons. simpl. exact IH.
Qed.

Lemma substring_split (s : string) (n : nat) :
  (n ≤ String.length s)%nat →
  substring 0 n s +:+ substring n (String.length s - n) s = s.
Proof.
  revert n. induction s as [|c s IH]; intros [|n] Hn; simpl in *; try done; try lia.
  - by rewrite substring_all.
  - rewrite string_app_cons. f_equal. apply IH. lia.
Qed.

(** [HasSuffix s t] holds exactly when [s] is some string followed by [t]. *)
Lemma HasSuffix_true_iff (s t : string) :
  HasSuffix s t = true ↔ ∃ p, s = p +:+ t.
Proof.
  unfold HasSuffix. split.
  - intros [Hlen Heq]%andb_true_iff.
    apply Nat.leb_le in Hlen. apply String.eqb_eq in Heq.
    exists (substring 0 (String.length s - String.length t) s).
    pose proof (substring_split s (String.length s - String.length t)) as Hsplit.
    replace (String.length s - (String.length s - String.length t))%nat
      with (String.length t) in Hsplit by lia.
    rewrite Heq in Hsplit. symmetry. apply Hsplit. lia.
  - intros [p ->]. rewrite string_length_app. apply andb_true_iff. split.
    + apply Nat.leb_le. lia.
    + replace (String.length p + String.length t - String.length t)%nat
        with (String.length p) by lia.
      rewrite substring_skip, substring_all. apply String.eqb_refl.
Qed.

Lemma withTrailingNewline_suffix (c : string) :
  HasSuffix (withTrailingNewline c) newline = true.
Proof.
  unfold withTrailingNewline. destruct (HasSuffix c newline) eqn:Hc; simpl; [done|].
  apply HasSuffix_true_iff. by exists c.
Qed.

Lemma withTrailingNewline_single (c : string) :
  HasSuffix c (newline +:+ newline) = false →
  HasSuffix (withTrailingNewline c) (newline +:+ newline) = false.
Proof.
  intros Hc. unfold withTrailingNewline.
  destruct (HasSuffix c newline) eqn:Hone; simpl; [done|].
  apply not_true_is_false. intros [p Hp]%HasSuffix_true_iff.
  rewrite <- string_app_assoc in Hp. apply string_app_inv_tail in Hp.
  assert (HasSuffix c newline = true); [|congruence].
  apply HasSuffix_true_iff. by exists p.
Qed.

Lemma materializeField_string (config : gmap string value)
    (secretData : gmap string string) (s d c : string) :
  config !! s = Some (VStr c) →
  c ≠ "" →
  materializeField (config, secretData) (s, d)
    = (<[d := VStr (path_Join pathToMachineFiles (fileNameOf s d))]> (delete s config),
       <[fileNameOf s d := withTrailingNewline c]> secretData).
Proof.
  intros Hs Hc. unfold materializeField. rewrite Hs.
  by destruct (String.eqb_spec c "").
Qed.

Lemma materializeField_empty (config : gmap string value)
    (secretData : gmap string string) (s d : string) :
  config !! s = Some (VStr "") →
  materializeField (config, secretData) (s, d) = (delete s config, secretData).
Proof. intros Hs. unfold materializeField. by rewrite Hs. Qed.

Lemma materializeField_config_frame (acc : gmap string value * gmap string string)
    (s d k : string) :
  k ≠ s → k ≠ d → (materializeField acc (s, d)).1 !! k = acc.1 !! k.
Proof.
  intros Hs Hd. destruct acc as [config secretData]. unfold materializeField.
  destruct (config !! s) as [[| |c|]|]; try done.
  destruct (String.eqb c ""); simpl.
  - by rewrite lookup_delete_ne.
  - by rewrite lookup_insert_ne, lookup_delete_ne.
Qed.

Lemma materializeField_secret_frame (acc : gmap string value * gmap string string)
    (s d f : string) :
  f ≠ fileNameOf s d → (materializeField acc (s, d)).2 !! f = acc.2 !! f.
Proof.
  intros Hf. destruct acc as [config secretData]. unfold materializeField.
  destruct (config !! s) as [[| |c|]|]; try done.
  destruct (String.eqb c ""); simpl; [done|].
  by rewrite lookup_insert_ne.
Qed.

Lemma materialize_config_frame (l : list (string * string))
    (acc : gmap string value * gmap string string) (k : string) :
  (∀ s d, (s, d) ∈ l → k ≠ s ∧ k ≠ d) →
  (fold_left materializeField l acc).1 !! k = acc.1 !! k.
Proof.
  revert acc. induction l as [|[s d] l IH]; intros acc Hl; simpl; [done|].
  rewrite IH.
  - destruct (Hl s d) as [Hs Hd]; [by left|]. by apply materializeField_config_frame.
  - intros s' d' Hin. apply Hl. by right.
Qed.

Lemma materialize_secret_frame (l : list (string * string))
    (acc : gmap string value * gmap string string) (f : string) :
  (∀ s d, (s, d) ∈ l → f ≠ fileNameOf s d) →
  (fold_left materializeField l acc).2 !! f = acc.2 !! f.
Proof.
  revert acc. induction l as [|[s d] l IH]; intros acc Hl; simpl; [done|].
  rewrite IH.
  - apply materializeField_secret_frame, Hl. by left.
  - intros s' d' Hin. apply Hl. by right.
Qed.


(** One visited entry, seen from the whole loop: with pairwise distinct
    schema fields and no interference between the entries, what the round
    on [s ↦ d] does is what the loop leaves behind. *)
Lemma materialize_entry (l : list (string * string)) (s d : string)
    (config : gmap string value) (secretData : gmap string string) :
  NoDup (l.*1) →
  (∀ s1 d1 s2 d2, (s1, d1) ∈ l → (s2, d2) ∈ l → s1 ≠ s2 →
     d1 ≠ s2 ∧ d1 ≠ d2 ∧ fileNameOf s1 d1 ≠ fileNameOf s2 d2) →
  (s, d) ∈ l →
  (∀ c, config !! s = Some (VStr c) → c ≠ "" →
     (fold_left materializeField l (config, secretData)).2 !! fileNameOf s d
       = Some (withTrailingNewline c)
     ∧ (fold_left materializeField l (config, secretData)).1 !! d
       = Some (VStr (path_Join pathToMachineFiles (fileNameOf s d)))
     ∧ (s ≠ d → (fold_left materializeField l (config, secretData)).1 !! s = None))
  ∧ (config !! s = Some (VStr "") →
     (fold_left materializeField l (config, secretData)).1 !! s = None
     ∧ (fold_left materializeField l (config, secretData)).2 !! fileNameOf s d
       = secretData !! fileNameOf s d).
Proof.
  intros Hkeys Hni Hin.
  destruct (list_elem_of_split l (s, d) Hin) as (l1 & l2 & ->).
  assert (∀ s' d', (s', d') ∈ l1 ∨ (s', d') ∈ l2 → s' ≠ s) as Hother.
  { rewrite fmap_app, fmap_cons in Hkeys. simpl in Hkeys.
    apply NoDup_app in Hkeys as (_ & Hl1 & [Hl2 _]%NoDup_cons).
    intros s' d' [H1|H2] ->.
    - apply (Hl1 s); [by apply (list_elem_of_fmap_2 fst l1 (s, d'))|by left].
    - apply Hl2. by apply (list_elem_of_fmap_2 fst l2 (s, d')). }
  assert (∀ s' d', (s', d') ∈ l1 ∨ (s', d') ∈ l2 →
            (d' ≠ s ∧ d' ≠ d ∧ fileNameOf s' d' ≠ fileNameOf s d)
            ∧ (d ≠ s' ∧ d ≠ d' ∧ fileNameOf s d ≠ fileNameOf s' d')) as Hfree.
  { intros s' d' Hin'.
    assert ((s', d') ∈ (l1 ++ (s, d) :: l2)%list) as Hmem.
    { apply elem_of_app. destruct Hin' as [H1|H2]; [by left|right; by right]. }
    pose proof (Hother s' d' Hin') as Hne.
    split; [by apply Hni|apply Hni; [done|done|congruence]]. }
  rewrite fold_left_app. simpl.
  set (acc1 := fold_left materializeField l1 (config, secretData)).
  assert (acc1.1 !! s = config !! s) as Hbefore.
  { unfold acc1. rewrite materialize_config_frame; [done|].
    intros s' d' Hin'. pose proof (Hother s' d' (or_introl Hin')).
    destruct (Hfree s' d' (or_introl Hin')) as [(? & _) _]. split; congruence. }
  assert (acc1.2 !! fileNameOf s d = secretData !! fileNameOf s d) as Hsecret.
  { unfold acc1. rewrite materialize_secret_frame; [done|].
    intros s' d' Hin'. by destruct (Hfree s' d' (or_introl Hin')) as [_ (_ & _ & ?)]. }
  assert (∀ acc k, (k = s ∨ k = d) →
            (fold_left materializeField l2 acc).1 !! k = acc.1 !! k) as Hafter.
  { intros acc k Hk. apply materialize_config_frame. intros s' d' Hin'.
    pose proof (Hother s' d' (or_intror Hin')).
    destruct (Hfree s' d' (or_intror Hin')) as [(? & ? & _) (? & ? & _)].
    destruct Hk as [->| ->]; split; congruence. }
  assert (∀ acc, (fold_left materializeField l2 acc).2 !! fileNameOf s d
                 = acc.2 !! fileNameOf s d) as Hafter2.
  { intros acc. apply materialize_secret_frame. intros s' d' Hin'.
    by destruct (Hfree s' d' (or_intror Hin')) as [_ (_ & _ & ?)]. }
  destruct acc1 as [config1 secret1] eqn:Hacc1. simpl in Hbefore, Hsecret.
  split.
  - intros c Hs Hc. rewrite <- Hbefore in Hs.
    rewrite (materializeField_string _ _ _ _ _ Hs Hc).
    rewrite Hafter2, (Hafter _ d) by by right. simpl.
    rewrite !lookup_insert_eq. split; [done|split; [done|]].
    intros Hsd. rewrite (Hafter _ s) by by left. simpl.
    rewrite lookup_insert_ne by congruence. apply lookup_delete_eq.
  - intros Hs. rewrite <- Hbefore in Hs.
    rewrite (materializeField_empty _ _ _ _ Hs).
    rewrite Hafter2, (Hafter _ s) by by left. simpl.
    split; [apply lookup_delete_eq|done].
Qed.

(** C9, as the code has it: for a driver with declared file-valued fields
    that do not interfere with one another, whatever the order in which
    the fields are visited, every declared field that holds a non-empty
    string is stored in the returned secret with a newline added unless
    the contents already end in one (so the stored bytes end in a newline,
    and in exactly one unless the contents ended in several), under the
    driver field's name or under [id_rsa] for an SSH-key field; the spec
    gets the path of that file under the driver field and loses the schema
    field; a field that holds the empty string is removed and yields no
    secret entry. *)
Theorem constructFilesSecret_materializes (driver : string)
    (fields : gmap string string) (config : gmap string value) :
  SchemaToDriverFields !! driver = Some fields →
  rangeFields fields ≡ₚ map_to_list fields →
  independentFields fields →
  ∃ secretData config',
    constructFilesSecret driver config = (Some secretData, config', None)
    ∧ ∀ s d, fields !! s = Some d →
        (∀ c, config !! s = Some (VStr c) → c ≠ "" →
           secretData !! fileNameOf s d = Some (withTrailingNewline c)
           ∧ HasSuffix (withTrailingNewline c) newline = true
           ∧ (HasSuffix c (newline +:+ newline) = false →
              HasSuffix (withTrailingNewline c) (newline +:+ newline) = false)
           ∧ (SSHKeyFields !! s = Some true → fileNameOf s d = "id_rsa")
           ∧ (default false (SSHKeyFields !! s) = false → fileNameOf s d = d)
           ∧ config' !! d
             = Some (VStr (path_Join pathToMachineFiles (fileNameOf s d)))
           ∧ (s ≠ d → config' !! s = None))
        ∧ (config !! s = Some (VStr "") →
           config' !! s = None ∧ secretData !! fileNameOf s d = None).
Proof.
  intros Hdriver Hrange Hni.
  unfold constructFilesSecret. rewrite Hdriver.
  destruct (fold_left materializeField (rangeFields fields) (config, ∅))
    as [config' secretData] eqn:Hloop.
  exists secretData, config'. split; [done|].
  intros s d Hfield.
  assert (∀ s' d', (s', d') ∈ rangeFields fields ↔ fields !! s' = Some d') as Hmem.
  { intros s' d'. rewrite Hrange. apply elem_of_map_to_list. }
  assert (NoDup ((rangeFields fields).*1)) as Hkeys.
  { rewrite Hrange. apply NoDup_fst_map_to_list. }
  destruct (materialize_entry (rangeFields fields) s d config ∅ Hkeys) as [Hfull Hnone].
  { intros s1 d1 s2 d2 H1%Hmem H2%Hmem. by apply Hni. }
  { by apply Hmem. }
  rewrite Hloop in Hfull, Hnone. simpl in Hfull, Hnone. split.
  - intros c Hs Hc. destruct (Hfull c Hs Hc) as (Hsecret & Hpath & Hgone).
    split; [done|]. split; [apply withTrailingNewline_suffix|].
    split; [apply withTrailingNewline_single|].
    unfold fileNameOf.
    split; [by intros ->|]. split; [by intros ->|]. done.
  - intros Hs. destruct (Hnone Hs) as [Hgone Hsecret].
    split; [done|]. by rewrite Hsecret.
Qed.

End Properties.

(** ** The statements on the concrete environment *)

#[local] Existing Instance sampleLibrary.

(** C4: a job whose Failed condition is true and whose only pod has not
    succeeded, the second container of the pod having terminated with exit
    code 7 while the first has no terminated state. The translator reads
    the message through the nil [Terminated] pointer of the first container
    status and stops in a panic instead of returning a summary. *)
Theorem getMachineStatus_first_container_running (create : bool) :
  job_CompletionTime (failedJob None) = None
  ∧ Cond_IsTrue "Failed" (job_Conditions (failedJob None)) = true
  ∧ lastPodOf None [sidecarPod] = Some sidecarPod
  ∧ Phase sidecarPod = PodFailed
  ∧ someContainerFailed (ContainerStatuses sidecarPod) = true
  ∧ getMachineStatusFromPod sidecarPod create = Panicked
  ∧ getMachineStatus (sampleHandler None false [sidecarPod]) (failedJob None) create
    = Panicked.
Proof. by destruct create. Qed.

(** With the failed container first, the pod is translated to the failure
    reason of the action and the trimmed message. *)
Example getMachineStatus_first_container_failed :
  getMachineStatus (sampleHandler None false [machineFirstPod]) (failedJob None) false
  = Returned ({| JobComplete := false; JobName := "";
                 FailureReason := "DeleteError"; FailureMessage := "boom" |}, None).
Proof. reflexivity. Qed.

(** A job with a completion timestamp, a true Failed condition and a pod
    on which the other path would stop. *)
Lemma getMachineStatus_completion_time_witness :
  getMachineStatus (sampleHandler None false [sidecarPod])
                   (failedJob (Some 1700000050)) true
  = Returned (completeStatus, None).
Proof.
  apply (getMachineStatus_completion_time (sampleHandler None false [sidecarPod])
           (failedJob (Some 1700000050)) true 1700000050).
  reflexivity.
Defined.

(** A failed job whose pods are gone. *)
Lemma getMachineStatus_failed_without_pods_witness :
  getMachineStatus liveHandler (failedJob None) true = Returned (emptyStatus, None).
Proof.
  apply (getMachineStatus_failed_without_pods liveHandler (failedJob None) true ∅);
    reflexivity.
Defined.

(** The pending machine is refused by name. *)
Lemma doRemove_create_job_not_finished_witness :
  exec (doRemove liveHandler pendingObj)
  = ((Some pendingObj,
      Some (ErrOther
              "cannot delete machine pool1-abcde because create job has not finished")),
     []).
Proof.
  apply (doRemove_create_job_not_finished liveHandler pendingObj); reflexivity.
Defined.

(** C3, as stated, fails: in a namespace that is being deleted [OnRemove]
    returns at once, while the deletion-job step ([doRemove]) on the same
    resource would apply the deletion job. *)
Lemma OnRemove_namespace_removed_skips_deletion_job :
  namespaces_Get deletedNamespaceHandler (obj_namespace workerObj)
    = Ok {| ns_Name := "fleet-default"; ns_DeletionTimestamp := Some 1700000200 |}
  ∧ exec (OnRemove deletedNamespaceHandler "fleet-default/pool1-abcde" workerObj)
    = ((Some workerObj, None), [])
  ∧ reachesDeletionJob
      (exec (OnRemove deletedNamespaceHandler "fleet-default/pool1-abcde"
                      workerObj)).2 = false
  ∧ reachesDeletionJob (exec (doRemove deletedNamespaceHandler workerObj)).2 = true.
Proof. repeat split; vm_compute; reflexivity. Qed.

(** Even an etcd member is let go at once in a namespace that is being
    deleted. *)
Lemma OnRemove_namespace_removed_witness :
  exec (OnRemove deletedNamespaceHandler "fleet-default/pool1-abcde" etcdObj)
    = ((Some etcdObj, None), [])
  ∧ reachesDeletionJob
      (exec (OnRemove deletedNamespaceHandler "fleet-default/pool1-abcde"
                      etcdObj)).2 = false.
Proof.
  apply (OnRemove_namespace_removed deletedNamespaceHandler
           "fleet-default/pool1-abcde" etcdObj
           {| ns_Name := "fleet-default"; ns_DeletionTimestamp := Some 1700000200 |}
           1700000200); reflexivity.
Defined.

(** C1, as stated, fails: every condition of the claim holds of this etcd
    member, yet its namespace is being deleted and [OnRemove] returns
    without error and without scheduling a re-check. *)
Lemma OnRemove_etcd_in_removed_namespace :
  obj_labels etcdObj !! etcdRoleLabel = Some "true"
  ∧ rancherClusterCache_Get deletedNamespaceHandler "fleet-default" "c1"
    = Ok sampleCluster
  ∧ Time_IsZero (cluster_DeletionTimestamp sampleCluster) = true
  ∧ getMachine deletedNamespaceHandler etcdObj = (Some sampleMachine, None)
  ∧ NodeRef sampleMachine = Some "node-1"
  ∧ etcdmgmt_SafelyRemoved deletedNamespaceHandler "rest-config" "rke2" "node-1"
    = Ok false
  ∧ exec (OnRemove deletedNamespaceHandler "fleet-default/pool1-abcde" etcdObj)
    = ((Some etcdObj, None), []).
Proof. repeat split; vm_compute; reflexivity. Qed.

(** The etcd member of a live namespace waits for its node. *)
Lemma OnRemove_etcd_not_safely_removed_witness :
  exec (OnRemove liveHandler "fleet-default/pool1-abcde" etcdObj)
    = ((Some etcdObj, Some ErrSkip),
       [EvEnqueueAfter sampleGVK "fleet-default" "pool1-abcde" 5])
  ∧ reachesDeletionJob
      (exec (OnRemove liveHandler "fleet-default/pool1-abcde" etcdObj)).2 = false.
Proof.
  apply (OnRemove_etcd_not_safely_removed liveHandler
           "fleet-default/pool1-abcde" etcdObj
           {| ns_Name := "fleet-default"; ns_DeletionTimestamp := None |}
           "c1" sampleCluster sampleMachine "node-1" "rest-config");
    first [ vm_compute; reflexivity | discriminate ].
Defined.

(** Once the node has been removed from etcd, the same resource goes on to
    the deletion job. *)
Example OnRemove_etcd_safely_removed :
  reachesDeletionJob
    (exec (OnRemove (sampleHandler None true []) "fleet-default/pool1-abcde"
                    etcdObj)).2 = true.
Proof. vm_compute; reflexivity. Qed.

(** The stored failure of [failedObj] forces the update. *)
Lemma patchStatus_clears_failure_fields_witness :
  ∃ w, exec (patchStatus liveHandler failedObj failedObj completeStatus)
       = (dynamic_UpdateStatus liveHandler w, [EvUpdateStatus w]).
Proof.
  apply (patchStatus_clears_failure_fields liveHandler failedObj failedObj
           completeStatus eq_refl eq_refl eq_refl).
  left. apply String.eqb_neq. vm_compute; reflexivity.
Defined.

(** A completed job clears the failure that was stored on [failedObj]. *)
Example patchStatus_clears_stored_failure :
  exec (patchStatus liveHandler failedObj failedObj completeStatus)
  = ((Some (with_status failedObj
              (<["jobComplete" := VBool true]>
                 (<["failureReason" := VStr ""]>
                    {[ "failureMessage" := VStr "" ]}))), None),
     [EvUpdateStatus
        (with_status failedObj
           (<["jobComplete" := VBool true]>
              (<["failureReason" := VStr ""]>
                 {[ "failureMessage" := VStr "" ]})))]).
Proof. vm_compute; reflexivity. Qed.

(** Nothing is written for a machine that is already complete. *)
Lemma patchStatus_no_write_when_unchanged_witness :
  exec (patchStatus liveHandler workerObj workerObj completeStatus)
  = ((Some workerObj, None), []).
Proof.
  apply (proj1 (patchStatus_no_write_when_unchanged liveHandler workerObj
                  workerObj completeStatus)).
  apply statusChanged_false_iff. vm_compute; reflexivity.
Defined.

(** C7, as stated, fails: the condition stored on [erroredObj] equals the
    one computed from the error, no status update is performed, and the
    call returns the error it was given. *)
Lemma setCondition_unchanged_returns_error :
  List.find (hasType "CreateJob") (GetUnstructuredConditions erroredObj)
    = Some (NewCondition "CreateJob" "False" "Error" "boom")
  ∧ Condition_Equals (computedCondition "CreateJob" (Some (ErrOther "boom")))
                     (NewCondition "CreateJob" "False" "Error" "boom") = true
  ∧ exec (setCondition liveHandler erroredObj "CreateJob" (Some (ErrOther "boom")))
    = ((Some erroredObj, Some (ErrOther "boom")), []).
Proof. repeat split; vm_compute; reflexivity. Qed.

(** The stored condition of [erroredObj] is the computed one. *)
Lemma setCondition_no_write_when_unchanged_witness :
  exec (setCondition liveHandler erroredObj "CreateJob" (Some (ErrOther "boom")))
  = ((Some erroredObj, Some (ErrOther "boom")), []).
Proof.
  apply (proj1 (setCondition_no_write_when_unchanged liveHandler erroredObj
                  "CreateJob" (Some (ErrOther "boom")))
               (NewCondition "CreateJob" "False" "Error" "boom"));
    vm_compute; reflexivity.
Defined.

(** The skip sentinel is reported as success, and a second call on the
    written resource performs no further update. *)
Example setCondition_skip_twice :
  ∃ w, exec (setCondition liveHandler erroredObj "CreateJob" (Some ErrSkip))
       = ((Some w, None), [EvUpdateStatus w])
       ∧ obj_conditions w = [ NewCondition "CreateJob" "True" "" "" ]
       ∧ exec (setCondition liveHandler w "CreateJob" (Some ErrSkip))
         = ((Some w, None), []).
Proof. eexists. repeat split; vm_compute; reflexivity. Qed.

(** C9, as stated, fails: contents that end in two newlines are stored as
    they are, so the stored bytes do not end in exactly one newline. *)
Lemma constructFilesSecret_keeps_double_newline :
  SchemaToDriverFields !! "amazonec2" = Some amazonec2Fields
  ∧ (constructFilesSecret "amazonec2"
       {[ "sshKeyContents" := VStr ("KEY" +:+ newline +:+ newline) ]}).1.1
    = Some {[ "id_rsa" := "KEY" +:+ newline +:+ newline ]}
  ∧ HasSuffix ("KEY" +:+ newline +:+ newline) (newline +:+ newline) = true.
Proof. repeat split; vm_compute; reflexivity. Qed.

(** The two declared fields of the sample driver do not interfere. *)
Lemma amazonec2Fields_independent : independentFields amazonec2Fields.
Proof.
  assert (map_to_list amazonec2Fields
          = [("sshKeyContents", "sshKeypath"); ("userdata", "userdata")]) as Hlist
    by (vm_compute; reflexivity).
  intros s1 d1 s2 d2 H1%elem_of_map_to_list H2%elem_of_map_to_list Hne.
  rewrite Hlist in H1, H2.
  apply list_elem_of_In in H1, H2.
  destruct H1 as [H1|[H1|[]]]; destruct H2 as [H2|[H2|[]]];
    injection H1 as <- <-; injection H2 as <- <-;
    first [ destruct (Hne eq_refl)
          | repeat split; apply String.eqb_neq; vm_compute; reflexivity ].
Qed.

(** An SSH key without a final newline and an empty user-data field. *)
Lemma constructFilesSecret_materializes_witness :
  ∃ secretData config',
    constructFilesSecret "amazonec2"
      (<["sshKeyContents" := VStr "KEY"]> {[ "userdata" := VStr "" ]})
    = (Some secretData, config', None)
    ∧ secretData !! "id_rsa" = Some ("KEY" +:+ newline)
    ∧ config' !! "sshKeypath" = Some (VStr "/path/to/machine/files/id_rsa")
    ∧ config' !! "sshKeyContents" = None
    ∧ config' !! "userdata" = None
    ∧ secretData !! "userdata" = None.
Proof.
  assert (SchemaToDriverFields !! "amazonec2" = Some amazonec2Fields) as Hdriver
    by (vm_compute; reflexivity).
  assert (rangeFields amazonec2Fields ≡ₚ map_to_list amazonec2Fields) as Hrange
    by reflexivity.
  destruct (constructFilesSecret_materializes "amazonec2" amazonec2Fields
              (<["sshKeyContents" := VStr "KEY"]> {[ "userdata" := VStr "" ]})
              Hdriver Hrange amazonec2Fields_independent)
    as (secretData & config' & Hret & Hfields).
  exists secretData, config'. split; [exact Hret|].
  destruct (Hfields "sshKeyContents" "sshKeypath" eq_refl) as [Hkey _].
  destruct (Hkey "KEY" eq_refl) as (Hsecret & _ & _ & _ & _ & Hpath & Hgone);
    [done|].
  destruct (Hfields "userdata" "userdata" eq_refl) as [_ Hempty].
  destruct (Hempty eq_refl) as [Hgone' Hnone].
  split; [exact Hsecret|]. split; [exact Hpath|].
  split; [by apply Hgone|]. split; [exact Hgone'|exact Hnone].
Defined.
